(** * wiki-go: the markdown rendering core ([internal/utils/markdown.go])

    A shallow embedding of [renderLink], [RenderMarkdownFile], [RenderMarkdown]
    and [RenderMarkdownWithPath], together with the parts of the Go standard
    library and of goldmark's [util] package these functions call.

    Go strings are byte sequences; they are modelled by [string], whose
    characters are the 256 values of [ascii]. *)

From Stdlib Require Import String Ascii List Bool Arith Lia.
Import ListNotations.
Open Scope list_scope.
Open Scope string_scope.

(** ** Package [strings] *)

Module Strings.

(** [strings.HasPrefix(s, prefix)] *)
Fixpoint HasPrefix (s prefix : string) {struct prefix} : bool :=
  match prefix, s with
  | EmptyString, _ => true
  | String _ _, EmptyString => false
  | String c prefix', String d s' => Ascii.eqb c d && HasPrefix s' prefix'
  end.

(** [strings.HasSuffix(s, suffix)]:
    [len(s) >= len(suffix) && s[len(s)-len(suffix):] == suffix] *)
Definition HasSuffix (s suffix : string) : bool :=
  Nat.leb (String.length suffix) (String.length s) &&
  String.eqb
    (substring (String.length s - String.length suffix) (String.length suffix) s)
    suffix.

(** [s[n:]] *)
Fixpoint drop (n : nat) (s : string) : string :=
  match n, s with
  | O, _ => s
  | S _, EmptyString => EmptyString
  | S k, String _ s' => drop k s'
  end.

(** [strings.TrimPrefix(s, prefix)] *)
Definition TrimPrefix (s prefix : string) : string :=
  if HasPrefix s prefix then drop (String.length prefix) s else s.

(** A byte below [utf8.RuneSelf] (0x80). *)
Definition isASCIIByte (c : ascii) : bool := Nat.ltb (nat_of_ascii c) 128.

Fixpoint isASCII (s : string) : bool :=
  match s with
  | EmptyString => true
  | String c s' => isASCIIByte c && isASCII s'
  end.

(** ['A' <= c && c <= 'Z'] mapped to [c + ('a' - 'A')], other bytes kept. *)
Definition lowerByte (c : ascii) : ascii :=
  let n := nat_of_ascii c in
  if Nat.leb 65 n && Nat.leb n 90 then ascii_of_nat (n + 32) else c.

Fixpoint mapBytes (f : ascii -> ascii) (s : string) : string :=
  match s with
  | EmptyString => EmptyString
  | String c s' => String (f c) (mapBytes f s')
  end.

(** [strings.ToLower(s)].  For a string of ASCII bytes the library lowers
    byte by byte; any other string goes through
    [strings.Map(unicode.ToLower, s)], which needs the Unicode case tables
    and is passed in as [mapUnicodeToLower]. *)
Definition ToLower (mapUnicodeToLower : string -> string) (s : string) : string :=
  if isASCII s then mapBytes lowerByte s else mapUnicodeToLower s.

(** [strings.ReplaceAll(s, old, new)] for a non-empty [old]: the
    non-overlapping occurrences of [old], found left to right, are replaced.
    [skip] counts the bytes of a matched occurrence still to be dropped.
    (For an empty [old] the library inserts [new] around every rune; the
    program never calls it that way, and here [s] is returned.) *)
Fixpoint replaceFrom (skip : nat) (s old new : string) : string :=
  match s with
  | EmptyString => EmptyString
  | String c s' =>
      match skip with
      | S k => replaceFrom k s' old new
      | O =>
          if HasPrefix s old
          then new ++ replaceFrom (String.length old - 1) s' old new
          else String c (replaceFrom 0 s' old new)
      end
  end.

Definition ReplaceAll (s old new : string) : string :=
  match old with
  | EmptyString => s
  | _ => replaceFrom 0 s old new
  end.

(** [strings.Join(elems, sep)] *)
Fixpoint Join (elems : list string) (sep : string) : string :=
  match elems with
  | [] => EmptyString
  | [e] => e
  | e :: rest => e ++ sep ++ Join rest sep
  end.

(** [strings.Count(s, sep)] for a one-byte separator. *)
Fixpoint CountByte (s : string) (sep : ascii) : nat :=
  match s with
  | EmptyString => 0
  | String c s' => (if Ascii.eqb c sep then 1 else 0) + CountByte s' sep
  end.

End Strings.

(** ** Package [path/filepath], on a platform whose [Separator] is ['/']
    and whose volume names are empty (every Unix target). *)

Module Filepath.

Definition Separator : ascii := "/"%char.

Definition IsPathSeparator (c : ascii) : bool := Ascii.eqb c Separator.

(** The path elements: the maximal runs between separators, empty ones
    included (["/a//b"] has the four elements empty, [a], empty, [b]). *)
Fixpoint splitElems (s : string) : list string :=
  match s with
  | EmptyString => [EmptyString]
  | String c s' =>
      if IsPathSeparator c then EmptyString :: splitElems s'
      else match splitElems s' with
           | e :: rest => String c e :: rest
           | [] => [String c EmptyString]
           end
  end.

(** One turn of the loop of [Clean], on the element that starts at [r].
    [out] holds the elements written so far, last one first; the elements
    [".."] in it are the leading ones that cannot be backed over (what the
    library tracks with the index [dotdot]). *)
Definition cleanStep (rooted : bool) (out : list string) (e : string) : list string :=
  if String.eqb e EmptyString then out        (* empty path element *)
  else if String.eqb e "." then out           (* . element *)
  else if String.eqb e ".." then              (* .. element *)
    match out with
    | last :: before =>
        if String.eqb last ".."
        then (if rooted then out else ".." :: out)
        else before                           (* can backtrack *)
    | [] => if rooted then out else [".."]    (* cannot backtrack *)
    end
  else e :: out.                              (* real path element *)

(** [filepath.Clean(path)] *)
Definition Clean (path : string) : string :=
  match path with
  | EmptyString => "."
  | String c _ =>
      let rooted := IsPathSeparator c in
      let out := fold_left (cleanStep rooted) (splitElems path) [] in
      let body := Strings.Join (rev out) "/" in
      if rooted then "/" ++ body
      else if String.eqb body EmptyString then "." else body
  end.

(** The bytes of [path] up to and including its last separator
    ([path[:i+1]] after the backward scan of [Dir]). *)
Fixpoint uptoLastSep (path : string) : string :=
  match path with
  | EmptyString => EmptyString
  | String c s' =>
      let r := uptoLastSep s' in
      if IsPathSeparator c then String c r
      else match r with
           | EmptyString => EmptyString
           | _ => String c r
           end
  end.

(** [filepath.Dir(path)] *)
Definition Dir (path : string) : string := Clean (uptoLastSep path).

(** [path] without its trailing separators. *)
Fixpoint stripTrailingSeps (path : string) : string :=
  match path with
  | EmptyString => EmptyString
  | String c s' =>
      match stripTrailingSeps s' with
      | EmptyString => if IsPathSeparator c then EmptyString else String c EmptyString
      | r => String c r
      end
  end.

(** The bytes after the last separator ([path[i+1:]]), or [path] itself
    when it has none. *)
Definition afterLastSep (path : string) : string :=
  Strings.drop (String.length (uptoLastSep path)) path.

(** [filepath.Base(path)] *)
Definition Base (path : string) : string :=
  match path with
  | EmptyString => "."
  | _ =>
      match afterLastSep (stripTrailingSeps path) with
      | EmptyString => "/"
      | b => b
      end
  end.

(** [filepath.Join(elem...)]: the elements from the first non-empty one on,
    joined by the separator and cleaned. *)
Fixpoint Join (elem : list string) : string :=
  match elem with
  | [] => EmptyString
  | e :: rest =>
      if String.eqb e EmptyString then Join rest
      else Clean (Strings.Join elem "/")
  end.

(** The element of [s] that starts at its first byte. *)
Fixpoint firstElem (s : string) : string :=
  match s with
  | EmptyString => EmptyString
  | String c s' => if IsPathSeparator c then EmptyString else String c (firstElem s')
  end.

(** [s] after its first element and the separator that ends it. *)
Fixpoint afterFirstElem (s : string) : string :=
  match s with
  | EmptyString => EmptyString
  | String c s' => if IsPathSeparator c then s' else afterFirstElem s'
  end.

(** The loop of [Rel] that positions [base[b0:bi]] and [targ[t0:ti]] at the
    first differing elements.  The arguments are [base[b0:]] and [targ[t0:]]
    at the head of the loop; the result is [base[b0:]], [targ[t0:]] and
    [base[b0:bi]] when the loop is left.  Every turn consumes a byte of
    [base], so [length base] turns are enough. *)
Fixpoint relLoop (fuel : nat) (base targ : string) : string * string * string :=
  match fuel with
  | O => (base, targ, EmptyString)
  | S k =>
      if String.eqb base EmptyString || String.eqb targ EmptyString
      then (base, targ, EmptyString)
      else
        let eb := firstElem base in
        let et := firstElem targ in
        if negb (String.eqb et eb) then (base, targ, eb)
        else relLoop k (afterFirstElem base) (afterFirstElem targ)
  end.

Fixpoint repeatUp (seps : nat) : string :=
  match seps with
  | O => EmptyString
  | S k => "/.." ++ repeatUp k
  end.

(** [filepath.Rel(basepath, targpath)]; [inr msg] is the error.  The
    program calls it with the base [data/documents] only. *)
Definition Rel (basepath targpath : string) : string + string :=
  let cant := inr ("Rel: can't make " ++ targpath ++ " relative to " ++ basepath) in
  let base := Clean basepath in
  let targ := Clean targpath in
  if String.eqb targ base then inl "."
  else
    let base := if String.eqb base "." then EmptyString else base in
    let baseSlashed := Strings.HasPrefix base "/" in
    let targSlashed := Strings.HasPrefix targ "/" in
    if negb (Bool.eqb baseSlashed targSlashed) then cant
    else
      match relLoop (String.length base) base targ with
      | (brest, trest, belem) =>
          if String.eqb belem ".." then cant
          else if negb (String.eqb brest EmptyString) then
            (* Base elements left. Must go up before going down. *)
            let seps := Strings.CountByte brest Separator in
            inl (".." ++ repeatUp seps ++
                 (if String.eqb trest EmptyString then EmptyString else "/" ++ trest))
          else inl trest
      end.

End Filepath.

(** ** goldmark: the parts of [util], [ast] and [renderer] the program uses *)

Module Goldmark.

(** The byte 0x22, the double quote. *)
Definition dquote : string := String (ascii_of_nat 34) EmptyString.

(** [util.EscapeHTMLByte]: the replacement of a byte in the HTML escape
    table, which has entries for the double quote, [&], [<] and [>]. *)
Definition EscapeHTMLByte (c : ascii) : option string :=
  match nat_of_ascii c with
  | 34 => Some "&quot;"
  | 38 => Some "&amp;"
  | 60 => Some "&lt;"
  | 62 => Some "&gt;"
  | _ => None
  end.

(** [util.EscapeHTML(v)] *)
Fixpoint EscapeHTML (v : string) : string :=
  match v with
  | EmptyString => EmptyString
  | String c v' =>
      match EscapeHTMLByte c with
      | Some escaped => escaped ++ EscapeHTML v'
      | None => String c (EscapeHTML v')
      end
  end.

(** [ast.WalkStatus] *)
Inductive WalkStatus : Type :=
  | WalkStop
  | WalkSkipChildren
  | WalkContinue.

(** A Go [error], by its message ([err.Error()]); [None] is [nil]. *)
Definition error : Type := string.

(** [util.BufWriter], of which the renderer uses [WriteString] only; the
    byte count it returns is dropped by every caller. *)
Class BufWriter (W : Type) : Type :=
  { WriteString : W -> string -> W * option error }.

(** [*ast.Link]: the destination and the method [Text(source)] that gives
    the text of the node's children. *)
Record Link : Type :=
  { Destination : string;
    Text : string -> string }.

(** [renderer.NodeRendererFunc], for link nodes. *)
Definition NodeRendererFunc : Type :=
  forall (W : Type), BufWriter W ->
    W -> string -> Link -> bool -> W * (WalkStatus * option error).

End Goldmark.

Import Goldmark.

(** ** The custom link renderer *)

Section LinkRenderer.

(** [strings.Map(unicode.ToLower, _)], see [Strings.ToLower]. *)
Variable mapUnicodeToLower : string -> string.

Context {W : Type} `{BufWriter W}.

(** [pdfLinkRenderer.renderLink] *)
Definition renderLink (w : W) (source : string) (node : Link) (entering : bool)
  : W * (WalkStatus * option error) :=
  if negb entering then
    let '(w, err) := WriteString w "</a>" in
    match err with
    | Some e => (w, (WalkStop, Some e))
    | None => (w, (WalkContinue, None))
    end
  else
    let destination := Destination node in
    let text := Text node source in
    let destinationLower := Strings.ToLower mapUnicodeToLower destination in
    if Strings.HasPrefix destinationLower "/api/files/"
       && Strings.HasSuffix destinationLower ".pdf"
    then
      let destination := Strings.TrimPrefix destination "/api/files" in
      (* Render as link to PDF viewer *)
      let '(w, err) :=
        WriteString w
          ("<a href=" ++ dquote ++ EscapeHTML (Filepath.Dir destination)
           ++ "?mode=pdf&file=" ++ Filepath.Base destination
           ++ dquote ++ ">" ++ text ++ "</a>") in
      match err with
      | Some e => (w, (WalkStop, Some e))
      | None => (w, (WalkSkipChildren, err))
      end
    else
      let '(w, err) :=
        WriteString w
          ("<a href=" ++ dquote ++ EscapeHTML destination
           ++ dquote ++ " target=" ++ dquote ++ "_blank" ++ dquote ++ ">"
           ++ text ++ "</a>") in
      match err with
      | Some e => (w, (WalkStop, Some e))
      | None => (w, (WalkSkipChildren, None))
      end.

End LinkRenderer.

(** [pdfLinkExtension.Extend]: the node renderer registered for
    [ast.KindLink]. *)
Definition pdfLinkExtension (mapUnicodeToLower : string -> string) : NodeRendererFunc :=
  fun W _ => renderLink mapUnicodeToLower.

(** A [bytes.Buffer] behind the writer: [WriteString] appends and returns
    no error. *)
#[export] Instance bytesBuffer : BufWriter string :=
  { WriteString := fun w s => (w ++ s, None) }.

(** A writer whose [WriteString] fails once [room] bytes are used. *)
Record boundedWriter : Type := { written : string; room : nat }.

#[export] Instance boundedBufWriter : BufWriter boundedWriter :=
  { WriteString := fun w s =>
      if Nat.leb (String.length s) (room w)
      then ({| written := written w ++ s; room := room w - String.length s |}, None)
      else (w, Some "short write") }.

(** What [renderLink] returns after a [WriteString]: [WalkStop] with the
    error if there is one, the given status otherwise. *)
Definition afterAnchor {W : Type} (written : W * option error) (status : WalkStatus)
  : W * (WalkStatus * option error) :=
  match written with
  | (w, Some e) => (w, (WalkStop, Some e))
  | (w, None) => (w, (status, None))
  end.

(** ** The packages around the pipeline *)

(** A computation of another package.  [World] is everything outside this
    file that a render can read or change: the file system and the
    package-level state of [goldext] and [frontmatter] (the registry, the
    placeholder tables of the current render). *)
Definition Ext (World A : Type) : Type := World -> A * World.

(** [frontmatter.PreprocessorFunc] and [frontmatter.PostProcessorFunc] *)
Definition PreprocessorFunc (World : Type) : Type := string -> string -> Ext World string.
Definition PostProcessorFunc (World : Type) : Type := string -> Ext World string.

(** What [markdown.go] imports and does not define. *)
Class Packages (World : Type) : Type :=
  { (** [os.ReadFile]; [inr] is the error *)
    ReadFile : string -> Ext World (string + error);
    (** [frontmatter.Metadata] and its field [Layout] *)
    Metadata : Type;
    Layout : Metadata -> string;
    (** [frontmatter.Parse]: the metadata, the content without frontmatter
        and whether there was frontmatter *)
    Parse : string -> Ext World (Metadata * string * bool);
    (** [frontmatter.RenderKanbanWithProcessors] *)
    RenderKanbanWithProcessors :
      string -> list (PreprocessorFunc World) -> list (PostProcessorFunc World)
      -> Ext World string;
    (** [frontmatter.RenderLinks]: the HTML and the error *)
    RenderLinks : string -> Ext World (string * option error);
    (** [goldext.RegisteredPreprocessors], a package-level slice whose
        entries may be nil *)
    RegisteredPreprocessors : World -> list (option (PreprocessorFunc World));
    (** [goldext.ProcessMarkdown] *)
    ProcessMarkdown : string -> string -> Ext World string;
    (** [goldext.RestoreMermaidBlocks] and [goldext.RestoreDirectionBlocks] *)
    RestoreMermaidBlocks : string -> Ext World string;
    RestoreDirectionBlocks : string -> Ext World string;
    (** [goldmark.New(...).Convert(md, &buf)] with the extensions and the
        parser and renderer options of [RenderMarkdownWithPath], given the
        node renderer that the one extension of this file registers for
        links: the contents of [buf] and the error *)
    Convert : NodeRendererFunc -> string -> Ext World (string * option error);
    (** [strings.Map(unicode.ToLower, _)], see [Strings.ToLower] *)
    mapUnicodeToLower : string -> string }.

(** The calls this file makes to other packages, as they appear in its
    text; a call whose error the file inspects is recorded with it. *)
Inductive Call : Type :=
  | CallReadFile (filePath : string) (err : option error)
  | CallParse (md : string)
  | CallRenderKanbanWithProcessors (content : string)
  | CallRenderLinks (content : string) (err : option error)
  | CallProcessMarkdown (md docPath : string)
  | CallConvert (md : string) (err : option error)
  | CallRestoreMermaidBlocks (html : string)
  | CallRestoreDirectionBlocks (html : string).

(** The outcome of a run: the value, the world it leaves and the calls it
    made, in order. *)
Record Run (World A : Type) : Type :=
  mkRun { value : A; world : World; calls : list Call }.
Arguments mkRun {World A}.
Arguments value {World A}.
Arguments world {World A}.
Arguments calls {World A}.

(** ** The rendering pipeline *)

Section Pipeline.

Context {World : Type} {pkgs : Packages World}.

Definition M (A : Type) : Type := World -> Run World A.

Definition ret {A : Type} (a : A) : M A := fun w => mkRun a w [].

Definition bind {A B : Type} (m : M A) (f : A -> M B) : M B :=
  fun w =>
    let r := m w in
    let r' := f (value r) (world r) in
    mkRun (value r') (world r') (calls r ++ calls r')%list.

(** A call to another package, recorded as [c] of what it returned. *)
Definition call {A : Type} (c : A -> Call) (f : Ext World A) : M A :=
  fun w => let '(a, w') := f w in mkRun a w' [c a].

(** Reading a package-level variable. *)
Definition readGlobal {A : Type} (g : World -> A) : M A :=
  fun w => mkRun (g w) w [].

Notation "x <- m ;; k" := (bind m (fun x => k))
  (at level 61, m at next level, right associativity).
Notation "' p <- m ;; k" := (bind m (fun x => let 'p := x in k))
  (at level 61, p pattern, m at next level, right associativity).

(** The closures built by the loop over the registry in the kanban branch:
    a nil entry is skipped, any other is wrapped so that it is called with
    the captured document path whatever path the board renderer passes. *)
Fixpoint wrapPreprocessors (docPath : string)
    (registered : list (option (PreprocessorFunc World)))
  : list (PreprocessorFunc World) :=
  match registered with
  | [] => []
  | None :: rest => wrapPreprocessors docPath rest
  | Some preprocessor :: rest =>
      (fun md _ => preprocessor md docPath) :: wrapPreprocessors docPath rest
  end.

(** The post-processor of the kanban branch, for mermaid and direction
    blocks. *)
Definition restoreBlocks : PostProcessorFunc World :=
  fun html w =>
    let '(result, w) := RestoreMermaidBlocks html w in
    let '(result, w) := RestoreDirectionBlocks result w in
    (result, w).

(** The rest of [RenderMarkdownWithPath] once no layout renderer has
    returned: pre-processing, conversion, restoration of the blocks. *)
Definition renderDefault (md docPath : string) : M string :=
  (* Apply any custom extensions via pre-processing *)
  md <- call (fun _ => CallProcessMarkdown md docPath)
             (ProcessMarkdown md docPath) ;;
  (* Convert markdown to HTML *)
  '(buf, err) <- call (fun r => CallConvert md (snd r))
                      (Convert (pdfLinkExtension mapUnicodeToLower) md) ;;
  match err with
  | Some e =>
      (* If there's an error, return an error message *)
      ret ("<p>Error rendering markdown with Goldmark: " ++ e ++ "</p>")
  | None =>
      (* Post-process: Restore Mermaid blocks *)
      htmlResult <- call (fun _ => CallRestoreMermaidBlocks buf)
                         (RestoreMermaidBlocks buf) ;;
      (* Post-process: Restore Direction blocks *)
      htmlResult <- call (fun _ => CallRestoreDirectionBlocks htmlResult)
                         (RestoreDirectionBlocks htmlResult) ;;
      ret htmlResult
  end.

(** [RenderMarkdownWithPath(md, docPath)] *)
Definition RenderMarkdownWithPath (md docPath : string) : M string :=
  (* Check for frontmatter *)
  '(metadata, contentWithoutFrontmatter, hasFrontmatter) <-
    call (fun _ => CallParse md) (Parse md) ;;
  if hasFrontmatter && String.eqb (Layout metadata) "kanban" then
    registered <- readGlobal RegisteredPreprocessors ;;
    let preprocessors := wrapPreprocessors docPath registered in
    let postProcessors := [restoreBlocks] in
    kanbanHTML <-
      call (fun _ => CallRenderKanbanWithProcessors contentWithoutFrontmatter)
           (RenderKanbanWithProcessors contentWithoutFrontmatter
              preprocessors postProcessors) ;;
    ret kanbanHTML
  else
    (* [inl]: the links branch has returned; [inr]: the value of [md]
       with which the function goes on *)
    links <-
      (if hasFrontmatter && String.eqb (Layout metadata) "links" then
         '(linksHTML, err) <-
           call (fun r => CallRenderLinks contentWithoutFrontmatter (snd r))
                (RenderLinks contentWithoutFrontmatter) ;;
         match err with
         | Some _ => ret (inr contentWithoutFrontmatter)
         | None => ret (inl linksHTML)
         end
       else ret (inr md)) ;;
    match links with
    | inl linksHTML => ret linksHTML
    | inr md =>
        let md := if hasFrontmatter then contentWithoutFrontmatter else md in
        renderDefault md docPath
    end.

(** [RenderMarkdown(md)] *)
Definition RenderMarkdown (md : string) : M string :=
  RenderMarkdownWithPath md EmptyString.

(** The document path that [RenderMarkdownFile] derives from the file
    path. *)
Definition documentPath (filePath : string) : string :=
  (* Get the directory path for the document *)
  let docDir := Filepath.Dir filePath in
  (* Convert to a relative path for URL construction *)
  let relPath :=
    match Filepath.Rel (Filepath.Join ["data"; "documents"]) docDir with
    | inl relPath => relPath
    | inr _ => Filepath.Base docDir
    end in
  (* Replace backslashes with forward slashes for URLs *)
  Strings.ReplaceAll relPath "\" "/".

(** [RenderMarkdownFile(filePath)] *)
Definition RenderMarkdownFile (filePath : string) : M (string + error) :=
  read <- call (fun r => CallReadFile filePath
                           match r with inl _ => None | inr e => Some e end)
               (ReadFile filePath) ;;
  match read with
  | inr err => ret (inr err)
  | inl mdContent =>
      html <- RenderMarkdownWithPath mdContent (documentPath filePath) ;;
      ret (inl html)
  end.

End Pipeline.

(** ** A small installation

    Stand-ins for the imported packages, small enough to run the pipeline
    on: files held in a list, frontmatter reduced to a one-word marker, an
    engine that wraps its input in a paragraph.  They serve to evaluate the
    functions above on concrete documents. *)

Module Sample.

(** The files, by path. *)
Definition World : Type := list (string * string).

Fixpoint lookup (path : string) (files : World) : option string :=
  match files with
  | [] => None
  | (p, content) :: rest => if String.eqb p path then Some content else lookup path rest
  end.

Definition readFile (path : string) : Ext World (string + error) :=
  fun w =>
    match lookup path w with
    | Some content => (inl content, w)
    | None => (inr ("open " ++ path ++ ": no such file or directory"), w)
    end.

(** Frontmatter is a leading [@kanban ] or [@links ]; the metadata is the
    layout. *)
Definition parse (md : string) : Ext World (string * string * bool) :=
  fun w =>
    if Strings.HasPrefix md "@kanban " then (("kanban", Strings.drop 8 md, true), w)
    else if Strings.HasPrefix md "@links " then (("links", Strings.drop 7 md, true), w)
    else ((EmptyString, md, false), w).

Fixpoint applyPreprocessors (ps : list (PreprocessorFunc World)) (md : string)
    (w : World) {struct ps} : string * World :=
  match ps with
  | [] => (md, w)
  | p :: rest => let '(md, w) := p md EmptyString w in applyPreprocessors rest md w
  end.

Fixpoint applyPostProcessors (ps : list (PostProcessorFunc World)) (html : string)
    (w : World) {struct ps} : string * World :=
  match ps with
  | [] => (html, w)
  | p :: rest => let '(html, w) := p html w in applyPostProcessors rest html w
  end.

Definition renderKanban (content : string) (pre : list (PreprocessorFunc World))
    (post : list (PostProcessorFunc World)) : Ext World string :=
  fun w =>
    let '(content, w) := applyPreprocessors pre content w in
    applyPostProcessors post ("<div class=kanban>" ++ content ++ "</div>") w.

(** The link list fails on a body that does not start with a URL. *)
Definition renderLinks (content : string) : Ext World (string * option error) :=
  fun w =>
    if Strings.HasPrefix content "http"
    then (("<ul><li>" ++ content ++ "</li></ul>", None), w)
    else (("<ul>", Some "no links found"), w).

Definition registered (_ : World) : list (option (PreprocessorFunc World)) :=
  [None; Some (fun md docPath w => (Strings.ReplaceAll md "{{path}}" docPath, w))].

Definition processMarkdown (md docPath : string) : Ext World string :=
  fun w => (Strings.ReplaceAll md "{{path}}" docPath, w).

(** A diagram block may hold the token of a directional block, not the
    other way round. *)
Definition restoreMermaid (html : string) : Ext World string :=
  fun w => (Strings.ReplaceAll html "MERMAID_0" "<div class=mermaid>DIRECTION_0</div>", w).

Definition restoreDirection (html : string) : Ext World string :=
  fun w => (Strings.ReplaceAll html "DIRECTION_0" "<div dir=rtl>MERMAID_0</div>", w).

(** The engine fails on a body that starts with a NUL byte. *)
Definition convert (_ : NodeRendererFunc) (md : string) : Ext World (string * option error) :=
  fun w =>
    match md with
    | String c _ =>
        if Ascii.eqb c zero then (("<p>", Some "unexpected NUL"), w)
        else (("<p>" ++ md ++ "</p>", None), w)
    | EmptyString => ((EmptyString, None), w)
    end.

#[global] Instance packages : Packages World :=
  { ReadFile := readFile;
    Metadata := string;
    Layout := fun layout => layout;
    Parse := parse;
    RenderKanbanWithProcessors := renderKanban;
    RenderLinks := renderLinks;
    RegisteredPreprocessors := registered;
    ProcessMarkdown := processMarkdown;
    RestoreMermaidBlocks := restoreMermaid;
    RestoreDirectionBlocks := restoreDirection;
    Convert := convert;
    mapUnicodeToLower := fun s => s }.

(** One file under the content root. *)
Definition files : World := [("data/documents/team/page.md", "see {{path}}")].

(** Documents: one for the board, one for the link list that the link
    list refuses, one the engine refuses, one with a diagram token. *)
Definition kanbanDoc : string := "@kanban todo {{path}}".
Definition linksDoc : string := "@links see {{path}}".
Definition failingDoc : string := String zero "abc".
Definition diagramDoc : string := "a MERMAID_0".

(** The link node of the document [[x](dest)]: its text is the byte of the
    source between the brackets. *)
Definition linkTo (dest : string) : Link :=
  {| Destination := dest; Text := fun source => substring 1 1 source |}.

End Sample.

(** ** Notions used in the statements *)

(** Whether the byte [c] occurs in [s] ([strings.IndexByte(s, c) >= 0]). *)
Fixpoint containsByte (s : string) (c : ascii) : bool :=
  match s with
  | EmptyString => false
  | String d s' => Ascii.eqb d c || containsByte s' c
  end.

(** The entries of a registry that are not nil, in their order. *)
Fixpoint nonNil {A : Type} (entries : list (option A)) : list A :=
  match entries with
  | [] => []
  | None :: rest => nonNil rest
  | Some a :: rest => a :: nonNil rest
  end.

(** * Properties *)

(** Settles membership of a call in a list of calls given by equation. *)
Ltac in_calls :=
  repeat match goal with
    | H : _ \/ _ |- _ => destruct H
    | H : exists _, _ |- _ => destruct H
    | H : _ /\ _ |- _ => destruct H
    end;
  subst; cbn [app In] in *; intuition (try discriminate; try congruence).

(** ** Package [path/filepath] *)

Lemma afterFirstElem_shorter (c : ascii) (s : string) :
  String.length (Filepath.afterFirstElem (String c s)) <= String.length s.
Proof.
  revert c. induction s as [| d s IH]; intros c; simpl.
  - destruct (Filepath.IsPathSeparator c); simpl; lia.
  - destruct (Filepath.IsPathSeparator c); simpl; [lia |].
    specialize (IH d). simpl in IH. lia.
Qed.

(** The loop of [Rel] does not depend on its fuel once this covers the
    length of the base: the bound on the number of turns is never what
    ends it. *)
Lemma relLoop_fuel (n m : nat) (base targ : string) :
  String.length base <= n -> String.length base <= m ->
  Filepath.relLoop n base targ = Filepath.relLoop m base targ.
Proof.
  revert m base targ. induction n as [| n IH]; intros m base targ Hn Hm.
  - destruct base; [| simpl in Hn; lia].
    destruct m; reflexivity.
  - destruct m as [| m].
    + destruct base; [reflexivity | simpl in Hm; lia].
    + simpl. destruct base as [| c base]; [reflexivity |].
      destruct (String.eqb (String c base) EmptyString || String.eqb targ EmptyString);
        [reflexivity |].
      destruct (negb (String.eqb (Filepath.firstElem targ)
                        (Filepath.firstElem (String c base)))); [reflexivity |].
      pose proof (afterFirstElem_shorter c base) as Hlen.
      simpl in Hn, Hm. apply IH; lia.
Qed.

(** [Clean], [Dir] and [Base] on sample paths. *)
Example Clean_examples :
  map Filepath.Clean
    [EmptyString; "abc//def//ghi"; "abc/./../def"; "/../abc"; "abc/def/../../..";
     "abc/def/../../../ghi/jkl/../../../mno"; "/abc/def/../../.."; "../../"]
  = ["."; "abc/def/ghi"; "def"; "/abc"; ".."; "../../mno"; "/"; "../.."].
Proof. reflexivity. Qed.

Example Dir_Base_examples :
  map Filepath.Dir ["/foo/bar.PDF"; "data/documents/team/page.md"; "page.md"; "/foo"; "x/"]
  = ["/foo"; "data/documents/team"; "."; "/"; "x"]
  /\ map Filepath.Base ["/foo/bar.PDF"; "a/b/"; "////"; EmptyString; "abc"]
     = ["bar.PDF"; "b"; "/"; "."; "abc"].
Proof. split; reflexivity. Qed.

(** [Rel] from the content root. *)
Example Rel_examples :
  map (Filepath.Rel "data/documents")
    ["data/documents/team"; "data/documents"; "data/documents/a/b/"; "data"; "other/x"]
  = [inl "team"; inl "."; inl "a/b"; inl ".."; inl "../../other/x"]
  /\ Filepath.Rel "data/documents" "/srv/wiki/data/documents/team"
     = inr "Rel: can't make /srv/wiki/data/documents/team relative to data/documents".
Proof. split; reflexivity. Qed.

(** ** The custom link renderer *)

Section LinkRendererFacts.

Variable toLower : string -> string.

Context {W : Type} `{BufWriter W}.

(** On leaving a link node the renderer writes the closing tag and nothing
    else. *)
Lemma renderLink_leaving (w : W) (source : string) (node : Link) :
  renderLink toLower w source node false
  = afterAnchor (WriteString w "</a>") WalkContinue.
Proof.
  unfold renderLink, afterAnchor; simpl.
  destruct (WriteString w "</a>") as [w' [e|]]; reflexivity.
Qed.

(** On entering, a destination that passes the test on its lower-cased form
    is rewritten from the destination with the literal prefix trimmed. *)
Lemma renderLink_entering_pdf (w : W) (source : string) (node : Link) :
  Strings.HasPrefix (Strings.ToLower toLower (Destination node)) "/api/files/" = true ->
  Strings.HasSuffix (Strings.ToLower toLower (Destination node)) ".pdf" = true ->
  renderLink toLower w source node true
  = afterAnchor
      (WriteString w
         ("<a href=" ++ dquote
          ++ EscapeHTML (Filepath.Dir (Strings.TrimPrefix (Destination node) "/api/files"))
          ++ "?mode=pdf&file="
          ++ Filepath.Base (Strings.TrimPrefix (Destination node) "/api/files")
          ++ dquote ++ ">" ++ Text node source ++ "</a>"))
      WalkSkipChildren.
Proof.
  intros Hp Hs. unfold renderLink, afterAnchor.
  cbv beta iota delta [negb]. rewrite Hp, Hs. cbv beta iota delta [andb].
  match goal with |- context [WriteString w ?s] =>
    destruct (WriteString w s) as [w' [e|]] end; reflexivity.
Qed.

(** On entering, any other destination gets the standard anchor. *)
Lemma renderLink_entering_other (w : W) (source : string) (node : Link) :
  Strings.HasPrefix (Strings.ToLower toLower (Destination node)) "/api/files/"
  && Strings.HasSuffix (Strings.ToLower toLower (Destination node)) ".pdf" = false ->
  renderLink toLower w source node true
  = afterAnchor
      (WriteString w
         ("<a href=" ++ dquote ++ EscapeHTML (Destination node)
          ++ dquote ++ " target=" ++ dquote ++ "_blank" ++ dquote ++ ">"
          ++ Text node source ++ "</a>"))
      WalkSkipChildren.
Proof.
  intros Hc. unfold renderLink, afterAnchor.
  cbv beta iota delta [negb]. rewrite Hc.
  match goal with |- context [WriteString w ?s] =>
    destruct (WriteString w s) as [w' [e|]] end; reflexivity.
Qed.

End LinkRendererFacts.

(** The literal prefix is trimmed when the destination has it in lower
    case. *)
Lemma TrimPrefix_literal (rest : string) :
  Strings.TrimPrefix ("/api/files" ++ rest) "/api/files" = rest.
Proof. reflexivity. Qed.

(** A writer that fails stops the walk with its error. *)
Example renderLink_short_write :
  renderLink (fun s => s) {| written := EmptyString; room := 3 |}
    "[x](/api/files/foo/bar.PDF)" (Sample.linkTo "/api/files/foo/bar.PDF") true
  = ({| written := EmptyString; room := 3 |}, (WalkStop, Some "short write")).
Proof. reflexivity. Qed.


(** C2, at a destination whose prefix is in another case.  The test on the
    lower-cased destination passes, the literal prefix is not found, and
    the href keeps [/API/Files]. *)
Theorem renderLink_prefix_in_other_case_kept :
  forall (toLower : string -> string) (buf : string),
    renderLink toLower buf "[x](/API/Files/foo/bar.pdf)"
      (Sample.linkTo "/API/Files/foo/bar.pdf") true
    = (buf ++ "<a href=" ++ dquote ++ "/API/Files/foo?mode=pdf&file=bar.pdf"
           ++ dquote ++ ">x</a>",
       (WalkSkipChildren, None)).
Proof.
  intros toLower buf.
  rewrite renderLink_entering_pdf by reflexivity.
  reflexivity.
Qed.

(** C8.  For the document [[x](https://example.com/doc.pdf)] the link
    renderer, on entering the link node, writes the standard anchor with
    the escaped destination and [target=_blank], and skips the children. *)
Theorem renderLink_standard_anchor :
  forall (toLower : string -> string) (buf : string),
    renderLink toLower buf "[x](https://example.com/doc.pdf)"
      (Sample.linkTo "https://example.com/doc.pdf") true
    = (buf ++ "<a href=" ++ dquote ++ "https://example.com/doc.pdf" ++ dquote
           ++ " target=" ++ dquote ++ "_blank" ++ dquote ++ ">x</a>",
       (WalkSkipChildren, None))
    /\ EscapeHTML "https://example.com/doc.pdf" = "https://example.com/doc.pdf".
Proof.
  intros toLower buf. split; [| reflexivity].
  rewrite renderLink_entering_other by reflexivity.
  reflexivity.
Qed.

(** ** The pipeline *)

Section PipelineFacts.

Context {World : Type} {pkgs : Packages World}.

(** The post-processor handed to the board renderer is direction-restore
    after diagram-restore. *)
Lemma restoreBlocks_order (html : string) (w : World) :
  restoreBlocks html w
  = RestoreDirectionBlocks (fst (RestoreMermaidBlocks html w))
      (snd (RestoreMermaidBlocks html w)).
Proof.
  unfold restoreBlocks.
  destruct (RestoreMermaidBlocks html w) as [result w1]; cbn [fst snd].
  destruct (RestoreDirectionBlocks result w1); reflexivity.
Qed.

(** The default pipeline when the conversion succeeds. *)
Lemma renderDefault_converted (md docPath : string) (w : World) :
  let p := ProcessMarkdown md docPath w in
  let c := Convert (pdfLinkExtension mapUnicodeToLower) (fst p) (snd p) in
  let m := RestoreMermaidBlocks (fst (fst c)) (snd c) in
  let d := RestoreDirectionBlocks (fst m) (snd m) in
  snd (fst c) = None ->
  renderDefault md docPath w
  = mkRun (fst d) (snd d)
      [CallProcessMarkdown md docPath; CallConvert (fst p) None;
       CallRestoreMermaidBlocks (fst (fst c)); CallRestoreDirectionBlocks (fst m)].
Proof.
  cbv zeta. unfold renderDefault, bind, call, ret.
  destruct (ProcessMarkdown md docPath w) as [md' w1]; cbn [fst snd value world calls].
  destruct (Convert (pdfLinkExtension mapUnicodeToLower) md' w1) as [[buf err] w2];
    cbn [fst snd value world calls].
  intros ->.
  destruct (RestoreMermaidBlocks buf w2) as [h w3]; cbn [fst snd value world calls].
  destruct (RestoreDirectionBlocks h w3) as [h' w4]; reflexivity.
Qed.

(** The default pipeline when the conversion fails. *)
Lemma renderDefault_failed (md docPath : string) (w : World) (e : error) :
  let p := ProcessMarkdown md docPath w in
  let c := Convert (pdfLinkExtension mapUnicodeToLower) (fst p) (snd p) in
  snd (fst c) = Some e ->
  renderDefault md docPath w
  = mkRun ("<p>Error rendering markdown with Goldmark: " ++ e ++ "</p>") (snd c)
      [CallProcessMarkdown md docPath; CallConvert (fst p) (Some e)].
Proof.
  cbv zeta. unfold renderDefault, bind, call, ret.
  destruct (ProcessMarkdown md docPath w) as [md' w1]; cbn [fst snd value world calls].
  destruct (Convert (pdfLinkExtension mapUnicodeToLower) md' w1) as [[buf err] w2];
    cbn [fst snd value world calls].
  intros ->. reflexivity.
Qed.

(** The calls of the default pipeline: pre-processing, conversion and, only
    after a conversion without error, the two restorations. *)
Lemma renderDefault_calls (md docPath : string) (w : World) :
  let r := renderDefault md docPath w in
  (exists m e w0 buf,
      calls r = [CallProcessMarkdown md docPath; CallConvert m (Some e)]
      /\ Convert (pdfLinkExtension mapUnicodeToLower) m w0 = ((buf, Some e), world r)
      /\ value r = "<p>Error rendering markdown with Goldmark: " ++ e ++ "</p>")
  \/ (exists m buf w0 w1 h,
      calls r = [CallProcessMarkdown md docPath; CallConvert m None;
                 CallRestoreMermaidBlocks buf; CallRestoreDirectionBlocks h]
      /\ RestoreMermaidBlocks buf w0 = (h, w1)
      /\ RestoreDirectionBlocks h w1 = (value r, world r)).
Proof.
  cbv zeta. unfold renderDefault, bind, call, ret.
  destruct (ProcessMarkdown md docPath w) as [md' w1] eqn:EP;
    cbn [fst snd value world calls].
  destruct (Convert (pdfLinkExtension mapUnicodeToLower) md' w1) as [[buf [e|]] w2] eqn:EC;
    cbn [fst snd value world calls].
  - left. exists md', e, w1, buf. auto.
  - right.
    destruct (RestoreMermaidBlocks buf w2) as [h w3] eqn:EM;
      cbn [fst snd value world calls].
    destruct (RestoreDirectionBlocks h w3) as [h' w4] eqn:ED;
      cbn [fst snd value world calls].
    exists md', buf, w2, w3, h. auto.
Qed.

(** The three ways through [RenderMarkdownWithPath]: the board renderer,
    the link-list renderer without error, or the default pipeline behind
    the calls in [pre]. *)
Lemma RenderMarkdownWithPath_branches (md docPath : string) (w : World) :
  let r := RenderMarkdownWithPath md docPath w in
  (exists content, calls r = [CallParse md; CallRenderKanbanWithProcessors content])
  \/ (exists content, calls r = [CallParse md; CallRenderLinks content None])
  \/ (exists pre md' w' ,
        let d := renderDefault md' docPath w' in
        calls r = (pre ++ calls d)%list /\ value r = value d /\ world r = world d
        /\ (pre = [CallParse md]
            \/ exists content e, pre = [CallParse md; CallRenderLinks content (Some e)])).
Proof.
  cbv zeta. unfold RenderMarkdownWithPath, bind, call, ret, readGlobal.
  destruct (Parse md w) as [[[metadata content] has] w1];
    cbn [fst snd value world calls].
  destruct (has && String.eqb (Layout metadata) "kanban").
  - left. destruct (RenderKanbanWithProcessors _ _ _ _) as [html w2];
      cbn [fst snd value world calls]. exists content. reflexivity.
  - right. destruct (has && String.eqb (Layout metadata) "links").
    + destruct (RenderLinks content w1) as [[linksHTML [e|]] w2];
        cbn [fst snd value world calls].
      * right. exists [CallParse md; CallRenderLinks content (Some e)], 
          (if has then content else content), w2.
        repeat split; eauto.
      * left. exists content. reflexivity.
    + right. cbn [fst snd value world calls].
      exists [CallParse md], (if has then content else md), w1.
      repeat split; eauto.
Qed.

(** The calls of a whole render, by the way taken. *)
Lemma RenderMarkdownWithPath_calls (md docPath : string) (w : World) :
  let r := RenderMarkdownWithPath md docPath w in
  (exists content, calls r = [CallParse md; CallRenderKanbanWithProcessors content])
  \/ (exists content, calls r = [CallParse md; CallRenderLinks content None])
  \/ (exists pre md' m e w0 buf,
        calls r = (pre ++ [CallProcessMarkdown md' docPath; CallConvert m (Some e)])%list
        /\ Convert (pdfLinkExtension mapUnicodeToLower) m w0 = ((buf, Some e), world r)
        /\ value r = "<p>Error rendering markdown with Goldmark: " ++ e ++ "</p>"
        /\ (pre = [CallParse md]
            \/ exists content e', pre = [CallParse md; CallRenderLinks content (Some e')]))
  \/ (exists pre md' m buf w0 w1 h,
        calls r = (pre ++ [CallProcessMarkdown md' docPath; CallConvert m None;
                           CallRestoreMermaidBlocks buf; CallRestoreDirectionBlocks h])%list
        /\ RestoreMermaidBlocks buf w0 = (h, w1)
        /\ RestoreDirectionBlocks h w1 = (value r, world r)
        /\ (pre = [CallParse md]
            \/ exists content e', pre = [CallParse md; CallRenderLinks content (Some e')])).
Proof.
  cbv zeta.
  destruct (RenderMarkdownWithPath_branches md docPath w)
    as [Hk | [Hl | (pre & md' & w' & Hc & Hv & Hw & Hpre)]]; auto.
  right; right.
  destruct (renderDefault_calls md' docPath w')
    as [(m & e & w0 & buf & Hd & HC & Hval)
       | (m & buf & w0 & w1 & h & Hd & HM & HD)].
  - left. exists pre, md', m, e, w0, buf.
    rewrite Hc, Hd, Hv, Hw. auto.
  - right. exists pre, md', m, buf, w0, w1, h.
    rewrite Hc, Hd, Hv, Hw. auto.
Qed.

(** C3, as the code has it.  For the file [data/documents/team/page.md]
    the document path is [team], the directory of the file relative to
    [data/documents]; it is the path [RenderMarkdownFile] passes to
    [RenderMarkdownWithPath] with the content it has read. *)
Theorem file_entry_passes_directory_path (w w' : World) (mdContent : string) :
  ReadFile "data/documents/team/page.md" w = (inl mdContent, w') ->
  documentPath "data/documents/team/page.md" = "team"
  /\ let r' := RenderMarkdownWithPath mdContent "team" w' in
     RenderMarkdownFile "data/documents/team/page.md" w
     = mkRun (inl (value r')) (world r')
         (CallReadFile "data/documents/team/page.md" None :: calls r').
Proof.
  intros Hread. split; [reflexivity |].
  cbv zeta. unfold RenderMarkdownFile, bind, call, ret.
  rewrite Hread; cbn [fst snd value world calls].
  change (documentPath "data/documents/team/page.md") with "team".
  rewrite app_nil_r. reflexivity.
Qed.

(** The run of the kanban branch. *)
Lemma RenderMarkdownWithPath_kanban
    (md docPath : string) (w w1 : World) (metadata : Metadata) (content : string) :
  Parse md w = ((metadata, content, true), w1) ->
  Layout metadata = "kanban" ->
  let board :=
    RenderKanbanWithProcessors content
      (wrapPreprocessors docPath (RegisteredPreprocessors w1)) [restoreBlocks] w1 in
  RenderMarkdownWithPath md docPath w
  = mkRun (fst board) (snd board)
      [CallParse md; CallRenderKanbanWithProcessors content].
Proof.
  intros HP HL. cbv zeta.
  unfold RenderMarkdownWithPath, bind, call, ret, readGlobal.
  rewrite HP; cbn [fst snd value world calls]. rewrite HL.
  cbn [String.eqb Ascii.eqb Bool.eqb andb value world calls].
  destruct (RenderKanbanWithProcessors _ _ _ _) as [html w2]; reflexivity.
Qed.

(** C4.  With frontmatter whose layout is [kanban], the result is what the
    board renderer returns on the content without frontmatter, given the
    wrapped preprocessors and the one restoring post-processor; the render
    calls [Parse] and the board renderer and never [Convert]. *)
Theorem kanban_layout_uses_board_renderer
    (md docPath : string) (w w1 : World) (metadata : Metadata) (content : string) :
  Parse md w = ((metadata, content, true), w1) ->
  Layout metadata = "kanban" ->
  let board :=
    RenderKanbanWithProcessors content
      (wrapPreprocessors docPath (RegisteredPreprocessors w1)) [restoreBlocks] w1 in
  let r := RenderMarkdownWithPath md docPath w in
  r = mkRun (fst board) (snd board)
        [CallParse md; CallRenderKanbanWithProcessors content]
  /\ (forall m e, ~ In (CallConvert m e) (calls r)).
Proof.
  intros HP HL. cbv zeta.
  rewrite (RenderMarkdownWithPath_kanban md docPath w w1 metadata content HP HL).
  split; [reflexivity |].
  intros m e. cbn [calls In]. intuition discriminate.
Qed.

(** C5.  With frontmatter whose layout is [links]: when the link-list
    renderer returns no error its HTML is the result; when it returns one,
    the result is that of the default pipeline on the content without
    frontmatter, and what the renderer returned beside the error is
    dropped. *)
Theorem links_layout_falls_back_on_failure
    (md docPath : string) (w w1 : World) (metadata : Metadata) (content : string) :
  Parse md w = ((metadata, content, true), w1) ->
  Layout metadata = "links" ->
  let r := RenderMarkdownWithPath md docPath w in
  match RenderLinks content w1 with
  | ((linksHTML, None), w2) =>
      r = mkRun linksHTML w2 [CallParse md; CallRenderLinks content None]
  | ((_, Some e), w2) =>
      let d := renderDefault content docPath w2 in
      r = mkRun (value d) (world d)
            (CallParse md :: CallRenderLinks content (Some e) :: calls d)
  end.
Proof.
  intros HP HL. cbv zeta.
  unfold RenderMarkdownWithPath, bind, call, ret.
  rewrite HP; cbn [fst snd value world calls]. rewrite HL.
  cbn [String.eqb Ascii.eqb Bool.eqb andb value world calls].
  destruct (RenderLinks content w1) as [[linksHTML [e|]] w2];
    cbn [fst snd value world calls app]; reflexivity.
Qed.

(** C6.  The post-processor of the kanban branch, the only one handed to
    the board renderer, is direction-restore applied to the result of
    diagram-restore; the default pipeline, after a conversion without
    error, returns direction-restore of diagram-restore of the converted
    HTML; and in any render that restores at all the two calls are the
    last two, diagram-restore first. *)
Theorem restoration_diagram_before_direction :
  (forall html w,
      restoreBlocks html w
      = RestoreDirectionBlocks (fst (RestoreMermaidBlocks html w))
          (snd (RestoreMermaidBlocks html w)))
  /\ (forall md docPath w w1 metadata content,
        Parse md w = ((metadata, content, true), w1) ->
        Layout metadata = "kanban" ->
        value (RenderMarkdownWithPath md docPath w)
        = fst (RenderKanbanWithProcessors content
                 (wrapPreprocessors docPath (RegisteredPreprocessors w1))
                 [restoreBlocks] w1))
  /\ (forall md docPath w,
        let p := ProcessMarkdown md docPath w in
        let c := Convert (pdfLinkExtension mapUnicodeToLower) (fst p) (snd p) in
        let m := RestoreMermaidBlocks (fst (fst c)) (snd c) in
        let d := RestoreDirectionBlocks (fst m) (snd m) in
        snd (fst c) = None ->
        renderDefault md docPath w
        = mkRun (fst d) (snd d)
            [CallProcessMarkdown md docPath; CallConvert (fst p) None;
             CallRestoreMermaidBlocks (fst (fst c));
             CallRestoreDirectionBlocks (fst m)])
  /\ (forall md docPath w html,
        let r := RenderMarkdownWithPath md docPath w in
        In (CallRestoreMermaidBlocks html) (calls r)
        \/ In (CallRestoreDirectionBlocks html) (calls r) ->
        exists pre buf w0 w1 h,
          calls r = (pre ++ [CallRestoreMermaidBlocks buf;
                             CallRestoreDirectionBlocks h])%list
          /\ RestoreMermaidBlocks buf w0 = (h, w1)
          /\ RestoreDirectionBlocks h w1 = (value r, world r)).
Proof.
  split; [exact restoreBlocks_order |].
  split.
  { intros md docPath w w1 metadata content HP HL.
    rewrite (RenderMarkdownWithPath_kanban md docPath w w1 metadata content HP HL).
    reflexivity. }
  split; [exact renderDefault_converted |].
  intros md docPath w html. cbv zeta. intros Hin.
  destruct (RenderMarkdownWithPath_calls md docPath w)
    as [(c & Hc) | [(c & Hc) | [(pre & md' & m & e & w0 & buf & Hc & _ & _ & Hpre)
       | (pre & md' & m & buf & w0 & w1 & h & Hc & HM & HD & Hpre)]]].
  - rewrite Hc in Hin. in_calls.
  - rewrite Hc in Hin. in_calls.
  - rewrite Hc in Hin. in_calls.
  - exists (pre ++ [CallProcessMarkdown md' docPath; CallConvert m None])%list,
      buf, w0, w1, h.
    rewrite Hc, <- app_assoc. auto.
Qed.

(** C7.  When [Convert] returns an error, the result is the paragraph
    [<p>Error rendering markdown with Goldmark: ...</p>] carrying the
    message: so for the default pipeline, and so for any render in which
    the conversion failed.  The result is a plain string; no error comes
    with it. *)
Theorem conversion_failure_renders_error_fragment :
  (forall md docPath w e,
      let p := ProcessMarkdown md docPath w in
      snd (fst (Convert (pdfLinkExtension mapUnicodeToLower) (fst p) (snd p))) = Some e ->
      value (renderDefault md docPath w)
      = "<p>" ++ "Error rendering markdown" ++ " with Goldmark: " ++ e ++ "</p>")
  /\ (forall md docPath w m e,
        In (CallConvert m (Some e)) (calls (RenderMarkdownWithPath md docPath w)) ->
        value (RenderMarkdownWithPath md docPath w)
        = "<p>" ++ "Error rendering markdown" ++ " with Goldmark: " ++ e ++ "</p>").
Proof.
  split.
  - intros md docPath w e p He. subst p.
    rewrite (renderDefault_failed md docPath w e He). reflexivity.
  - intros md docPath w m e Hin.
    destruct (RenderMarkdownWithPath_calls md docPath w)
      as [(c & Hc) | [(c & Hc) | [(pre & md' & m' & e' & w0 & buf & Hc & _ & Hv & Hpre)
         | (pre & md' & m' & buf & w0 & w1 & h & Hc & _ & _ & Hpre)]]];
      rewrite Hc in Hin.
    + in_calls.
    + in_calls.
    + rewrite Hv. clear Hv Hc.
      assert (e' = e) as -> by in_calls. reflexivity.
    + in_calls.
Qed.


(** C10.  In a render whose conversion failed, [CallConvert] is the last
    call: neither restoration is called, and the world the render leaves
    is the one [Convert] left. *)
Theorem conversion_failure_skips_restoration
    (md docPath : string) (w : World) (m : string) (e : error) :
  let r := RenderMarkdownWithPath md docPath w in
  In (CallConvert m (Some e)) (calls r) ->
  (forall html, ~ In (CallRestoreMermaidBlocks html) (calls r))
  /\ (forall html, ~ In (CallRestoreDirectionBlocks html) (calls r))
  /\ exists pre w0 buf,
       calls r = (pre ++ [CallConvert m (Some e)])%list
       /\ Convert (pdfLinkExtension mapUnicodeToLower) m w0 = ((buf, Some e), world r).
Proof.
  cbv zeta. intros Hin.
  destruct (RenderMarkdownWithPath_calls md docPath w)
    as [(c & Hc) | [(c & Hc) | [(pre & md' & m' & e' & w0 & buf & Hc & HC & _ & Hpre)
       | (pre & md' & m' & buf & w0 & w1 & h & Hc & _ & _ & Hpre)]]];
    rewrite Hc in Hin |- *.
  - in_calls.
  - in_calls.
  - assert (m' = m /\ e' = e) as [-> ->] by (clear HC Hc; in_calls).
    split; [| split].
    + intros html Hr. clear HC Hc Hin. in_calls.
    + intros html Hr. clear HC Hc Hin. in_calls.
    + exists (pre ++ [CallProcessMarkdown md' docPath])%list, w0, buf.
      rewrite <- app_assoc. auto.
  - in_calls.
Qed.

End PipelineFacts.

(** ** The properties on the small installation *)

(** C3, as the claim has it: the document path of
    [data/documents/team/page.md] is not [team/page]. *)
Lemma file_entry_document_path_is_not_page :
  documentPath "data/documents/team/page.md" <> "team/page".
Proof. vm_compute. discriminate. Qed.

(** The file of the sample installation: its content is rendered with the
    document path [team]. *)
Lemma file_entry_passes_directory_path_witness :
  ReadFile (World:=Sample.World) "data/documents/team/page.md" Sample.files
  = (inl "see {{path}}", Sample.files)
  /\ documentPath "data/documents/team/page.md" = "team"
  /\ value (RenderMarkdownFile (World:=Sample.World)
              "data/documents/team/page.md" Sample.files)
     = inl "<p>see team</p>".
Proof.
  assert (Hread : ReadFile (World:=Sample.World) "data/documents/team/page.md" Sample.files
                  = (inl "see {{path}}", Sample.files)) by reflexivity.
  destruct (file_entry_passes_directory_path (pkgs:=Sample.packages)
              Sample.files Sample.files "see {{path}}" Hread) as [Hpath Hrun].
  split; [exact Hread |]. split; [exact Hpath |].
  rewrite Hrun. vm_compute. reflexivity.
Defined.

(** The board document of the sample installation. *)
Lemma kanban_layout_uses_board_renderer_witness :
  Parse (World:=Sample.World) Sample.kanbanDoc Sample.files
  = (("kanban", "todo {{path}}", true), Sample.files)
  /\ value (RenderMarkdownWithPath (World:=Sample.World) Sample.kanbanDoc "p/q" Sample.files)
     = "<div class=kanban>todo p/q</div>"
  /\ forall m e,
       ~ In (CallConvert m e)
            (calls (RenderMarkdownWithPath (World:=Sample.World)
                      Sample.kanbanDoc "p/q" Sample.files)).
Proof.
  assert (HP : Parse (World:=Sample.World) Sample.kanbanDoc Sample.files
               = (("kanban", "todo {{path}}", true), Sample.files)) by reflexivity.
  destruct (kanban_layout_uses_board_renderer (pkgs:=Sample.packages)
              Sample.kanbanDoc "p/q" Sample.files Sample.files
              "kanban" "todo {{path}}" HP eq_refl) as [Hr Hn].
  split; [exact HP |]. split; [| exact Hn].
  rewrite Hr. vm_compute. reflexivity.
Defined.

(** The document the sample link list refuses: the default pipeline
    renders its content. *)
Lemma links_layout_falls_back_on_failure_witness :
  Parse (World:=Sample.World) Sample.linksDoc Sample.files
  = (("links", "see {{path}}", true), Sample.files)
  /\ RenderLinks (World:=Sample.World) "see {{path}}" Sample.files
     = (("<ul>", Some "no links found"), Sample.files)
  /\ value (RenderMarkdownWithPath (World:=Sample.World) Sample.linksDoc "p/q" Sample.files)
     = "<p>see p/q</p>".
Proof.
  assert (HP : Parse (World:=Sample.World) Sample.linksDoc Sample.files
               = (("links", "see {{path}}", true), Sample.files)) by reflexivity.
  pose proof (links_layout_falls_back_on_failure (pkgs:=Sample.packages)
                Sample.linksDoc "p/q" Sample.files Sample.files
                "links" "see {{path}}" HP eq_refl) as Hr.
  split; [exact HP |]. split; [reflexivity |].
  cbv zeta in Hr.
  change (RenderLinks (World:=Sample.World) "see {{path}}" Sample.files)
    with (("<ul>", Some "no links found"), Sample.files) in Hr.
  cbv beta iota in Hr. rewrite Hr. vm_compute. reflexivity.
Defined.

(** The document with a diagram token: the two restorations end the
    render, in this order. *)
Lemma restoration_diagram_before_direction_witness :
  In (CallRestoreDirectionBlocks "<p>a <div class=mermaid>DIRECTION_0</div></p>")
     (calls (RenderMarkdownWithPath (World:=Sample.World) Sample.diagramDoc "p/q" Sample.files))
  /\ exists pre buf w0 w1 h,
       calls (RenderMarkdownWithPath (World:=Sample.World) Sample.diagramDoc "p/q" Sample.files)
       = (pre ++ [CallRestoreMermaidBlocks buf; CallRestoreDirectionBlocks h])%list
       /\ RestoreMermaidBlocks (World:=Sample.World) buf w0 = (h, w1)
       /\ RestoreDirectionBlocks (World:=Sample.World) h w1
          = (value (RenderMarkdownWithPath (World:=Sample.World)
                      Sample.diagramDoc "p/q" Sample.files),
             world (RenderMarkdownWithPath (World:=Sample.World)
                      Sample.diagramDoc "p/q" Sample.files)).
Proof.
  assert (Hin : In (CallRestoreDirectionBlocks "<p>a <div class=mermaid>DIRECTION_0</div></p>")
                   (calls (RenderMarkdownWithPath (World:=Sample.World)
                             Sample.diagramDoc "p/q" Sample.files))).
  { vm_compute. do 4 right. left. reflexivity. }
  split; [exact Hin |].
  exact (proj2 (proj2 (proj2 (restoration_diagram_before_direction (pkgs:=Sample.packages))))
           Sample.diagramDoc "p/q" Sample.files _ (or_intror Hin)).
Defined.

(** The document the sample engine refuses. *)
Lemma conversion_failure_renders_error_fragment_witness :
  In (CallConvert Sample.failingDoc (Some "unexpected NUL"))
     (calls (RenderMarkdownWithPath (World:=Sample.World) Sample.failingDoc "p/q" Sample.files))
  /\ value (RenderMarkdownWithPath (World:=Sample.World) Sample.failingDoc "p/q" Sample.files)
     = "<p>Error rendering markdown with Goldmark: unexpected NUL</p>".
Proof.
  assert (Hin : In (CallConvert Sample.failingDoc (Some "unexpected NUL"))
                   (calls (RenderMarkdownWithPath (World:=Sample.World)
                             Sample.failingDoc "p/q" Sample.files))).
  { vm_compute. do 2 right. left. reflexivity. }
  split; [exact Hin |].
  exact (proj2 (conversion_failure_renders_error_fragment (pkgs:=Sample.packages))
           Sample.failingDoc "p/q" Sample.files _ _ Hin).
Defined.


(** The document the sample engine refuses: no restoration is called. *)
Lemma conversion_failure_skips_restoration_witness :
  In (CallConvert Sample.failingDoc (Some "unexpected NUL"))
     (calls (RenderMarkdownWithPath (World:=Sample.World) Sample.failingDoc "p/q" Sample.files))
  /\ (forall html,
        ~ In (CallRestoreMermaidBlocks html)
             (calls (RenderMarkdownWithPath (World:=Sample.World)
                       Sample.failingDoc "p/q" Sample.files)))
  /\ (forall html,
        ~ In (CallRestoreDirectionBlocks html)
             (calls (RenderMarkdownWithPath (World:=Sample.World)
                       Sample.failingDoc "p/q" Sample.files))).
Proof.
  assert (Hin : In (CallConvert Sample.failingDoc (Some "unexpected NUL"))
                   (calls (RenderMarkdownWithPath (World:=Sample.World)
                             Sample.failingDoc "p/q" Sample.files))).
  { vm_compute. do 2 right. left. reflexivity. }
  destruct (conversion_failure_skips_restoration (pkgs:=Sample.packages)
              Sample.failingDoc "p/q" Sample.files _ _ Hin) as (Hm & Hd & _).
  split; [exact Hin |]. split; [exact Hm | exact Hd].
Defined.

(** * Further properties *)

(** ** Strings *)

Lemma append_assoc (a b c : string) : (a ++ b) ++ c = a ++ (b ++ c).
Proof. induction a as [| x a IH]; simpl; [reflexivity | now rewrite IH]. Qed.

Lemma containsByte_app (a b : string) (c : ascii) :
  containsByte (a ++ b) c = containsByte a c || containsByte b c.
Proof.
  induction a as [| x a IH]; simpl; [reflexivity |].
  rewrite IH. now rewrite orb_assoc.
Qed.



(** ** The custom link renderer, in general *)

Section LinkRendererMore.

Variable toLower : string -> string.

Context {W : Type} `{BufWriter W}.

(** X1.  Every call of [renderLink] makes one [WriteString] call, of a text
    that ends with the closing tag.  If the write fails the call returns
    [WalkStop] with the error of the write; otherwise it returns no error,
    with [WalkSkipChildren] on entering and [WalkContinue] on leaving. *)
Theorem renderLink_single_write (w : W) (source : string) (node : Link) (entering : bool) :
  exists body,
    renderLink toLower w source node entering
    = afterAnchor (WriteString w (body ++ "</a>"))
        (if entering then WalkSkipChildren else WalkContinue).
Proof.
  destruct entering.
  - destruct (Strings.HasPrefix (Strings.ToLower toLower (Destination node)) "/api/files/"
              && Strings.HasSuffix (Strings.ToLower toLower (Destination node)) ".pdf")
      eqn:Htest.
    + apply andb_true_iff in Htest as [Hp Hs].
      rewrite (renderLink_entering_pdf toLower w source node Hp Hs).
      exists ("<a href=" ++ dquote
              ++ EscapeHTML (Filepath.Dir
                               (Strings.TrimPrefix (Destination node) "/api/files"))
              ++ "?mode=pdf&file="
              ++ Filepath.Base (Strings.TrimPrefix (Destination node) "/api/files")
              ++ dquote ++ ">" ++ Text node source).
      rewrite !append_assoc. reflexivity.
    + rewrite (renderLink_entering_other toLower w source node Htest).
      exists ("<a href=" ++ dquote ++ EscapeHTML (Destination node)
              ++ dquote ++ " target=" ++ dquote ++ "_blank" ++ dquote ++ ">"
              ++ Text node source).
      rewrite !append_assoc. reflexivity.
  - rewrite renderLink_leaving. exists EmptyString. reflexivity.
Qed.


End LinkRendererMore.

(** X2.  With a [bytes.Buffer] behind the writer no call of [renderLink]
    fails, and the entering call followed by the leaving call appends a
    text that ends with two closing tags: the anchor written on entering
    is already closed. *)
Theorem renderLink_enter_leave_closes_twice
    (toLower : string -> string) (buf source : string) (node : Link) :
  exists body,
    renderLink toLower buf source node true
    = (buf ++ body ++ "</a>", (WalkSkipChildren, None))
    /\ renderLink toLower (buf ++ body ++ "</a>") source node false
       = (buf ++ body ++ "</a>" ++ "</a>", (WalkContinue, None)).
Proof.
  assert (Henter : exists body,
             renderLink toLower buf source node true
             = (buf ++ body ++ "</a>", (WalkSkipChildren, None))).
  { destruct (Strings.HasPrefix (Strings.ToLower toLower (Destination node)) "/api/files/"
              && Strings.HasSuffix (Strings.ToLower toLower (Destination node)) ".pdf")
      eqn:Htest.
    - apply andb_true_iff in Htest as [Hp Hs].
      rewrite (renderLink_entering_pdf toLower buf source node Hp Hs).
      exists ("<a href=" ++ dquote
              ++ EscapeHTML (Filepath.Dir
                               (Strings.TrimPrefix (Destination node) "/api/files"))
              ++ "?mode=pdf&file="
              ++ Filepath.Base (Strings.TrimPrefix (Destination node) "/api/files")
              ++ dquote ++ ">" ++ Text node source).
      cbn [WriteString bytesBuffer afterAnchor].
      rewrite !append_assoc. reflexivity.
    - rewrite (renderLink_entering_other toLower buf source node Htest).
      exists ("<a href=" ++ dquote ++ EscapeHTML (Destination node)
              ++ dquote ++ " target=" ++ dquote ++ "_blank" ++ dquote ++ ">"
              ++ Text node source).
      cbn [WriteString bytesBuffer afterAnchor].
      rewrite !append_assoc. reflexivity. }
  destruct Henter as [body Hb].
  exists body. split; [exact Hb |].
  rewrite renderLink_leaving. cbn [WriteString bytesBuffer afterAnchor].
  rewrite !append_assoc. reflexivity.
Qed.

(** ** The pipeline, in general *)

Section PipelineMore.

Context {World : Type} {pkgs : Packages World}.

(** X4.  The preprocessors handed to the board renderer are the entries
    of the registry that are not nil, in the order of the registry, each
    wrapped so that it runs with the document path of the render: whatever
    path the board renderer passes to a wrapped preprocessor is ignored. *)
Theorem wrapPreprocessors_binds_path
    (docPath : string) (registered : list (option (PreprocessorFunc World))) :
  wrapPreprocessors docPath registered
  = map (fun preprocessor : PreprocessorFunc World =>
           fun md (_ : string) => preprocessor md docPath)
        (nonNil registered)
  /\ List.length (wrapPreprocessors docPath registered)
     = List.length (nonNil registered)
  /\ (forall wrapped,
        In wrapped (wrapPreprocessors docPath registered) ->
        exists preprocessor,
          In (Some preprocessor) registered
          /\ forall md path w, wrapped md path w = preprocessor md docPath w).
Proof.
  assert (Heq : wrapPreprocessors docPath registered
                = map (fun preprocessor : PreprocessorFunc World =>
                         fun md (_ : string) => preprocessor md docPath)
                    (nonNil registered)).
  { induction registered as [| [p |] rest IH]; cbn [wrapPreprocessors nonNil map].
    - reflexivity.
    - now rewrite IH.
    - exact IH. }
  split; [exact Heq |]. split.
  - rewrite Heq. apply length_map.
  - clear Heq. induction registered as [| [p |] rest IH];
      cbn [wrapPreprocessors]; intros wrapped Hin.
    + destruct Hin.
    + destruct Hin as [<- | Hin].
      * exists p. split; [left; reflexivity | reflexivity].
      * destruct (IH wrapped Hin) as (q & Hq & Hrun).
        exists q. split; [right; exact Hq | exact Hrun].
    + destruct (IH wrapped Hin) as (q & Hq & Hrun).
      exists q. split; [right; exact Hq | exact Hrun].
Qed.

(** X5.  When [Parse] reports no frontmatter, or reports frontmatter whose
    layout is neither [kanban] nor [links], the render is [Parse] followed
    by the default pipeline.  Without frontmatter the pipeline gets the
    text as given, whatever content and layout [Parse] returned with it;
    with frontmatter it gets the content without frontmatter. *)
Theorem default_route
    (md docPath : string) (w w1 : World) (metadata : Metadata)
    (content : string) (hasFrontmatter : bool) :
  Parse md w = ((metadata, content, hasFrontmatter), w1) ->
  hasFrontmatter = false
  \/ (Layout metadata <> "kanban" /\ Layout metadata <> "links") ->
  let d := renderDefault (if hasFrontmatter then content else md) docPath w1 in
  RenderMarkdownWithPath md docPath w
  = mkRun (value d) (world d) (CallParse md :: calls d).
Proof.
  intros HP Hroute. cbv zeta.
  unfold RenderMarkdownWithPath, bind, call, ret, readGlobal.
  rewrite HP; cbn [fst snd value world calls].
  assert (Hk : hasFrontmatter && String.eqb (Layout metadata) "kanban" = false).
  { destruct Hroute as [-> | [Hk _]]; [reflexivity |].
    apply String.eqb_neq in Hk. rewrite Hk. apply andb_false_r. }
  assert (Hl : hasFrontmatter && String.eqb (Layout metadata) "links" = false).
  { destruct Hroute as [-> | [_ Hl]]; [reflexivity |].
    apply String.eqb_neq in Hl. rewrite Hl. apply andb_false_r. }
  rewrite Hk, Hl. cbn [fst snd value world calls app]. reflexivity.
Qed.

(** Every call of [ProcessMarkdown] in a render gets its document path. *)
Lemma RenderMarkdownWithPath_path (md docPath : string) (w : World) (m p : string) :
  In (CallProcessMarkdown m p) (calls (RenderMarkdownWithPath md docPath w)) ->
  p = docPath.
Proof.
  destruct (RenderMarkdownWithPath_calls md docPath w)
    as [(c & Hc) | [(c & Hc) | [(pre & md' & m0 & e0 & w0 & buf & Hc & _ & _ & Hpre)
       | (pre & md' & m0 & buf & w0 & w1 & h & Hc & _ & _ & Hpre)]]];
    rewrite Hc; clear Hc; intros Hin; in_calls.
Qed.


(** X7.  The two other entry points fix the document path of the
    preprocessing: [RenderMarkdown] the empty path, [RenderMarkdownFile]
    the path derived from the file path. *)
Theorem entry_points_bind_path :
  (forall md w m p,
      In (CallProcessMarkdown m p) (calls (RenderMarkdown md w)) -> p = EmptyString)
  /\ (forall filePath w m p,
        In (CallProcessMarkdown m p) (calls (RenderMarkdownFile filePath w)) ->
        p = documentPath filePath).
Proof.
  split.
  - intros md w m p Hin. unfold RenderMarkdown in Hin.
    exact (RenderMarkdownWithPath_path md EmptyString w m p Hin).
  - intros filePath w m p.
    unfold RenderMarkdownFile, bind, call, ret.
    destruct (ReadFile filePath w) as [[mdContent | err] w'];
      cbn [fst snd value world calls app In].
    + rewrite app_nil_r. intros [Hin | Hin]; [discriminate |].
      exact (RenderMarkdownWithPath_path mdContent (documentPath filePath) w' m p Hin).
    + intros [Hin | []]. discriminate.
Qed.

End PipelineMore.

(** ** The document path of a file *)

Lemma replaceFrom_byte_gone (s new : string) (c : ascii) :
  containsByte new c = false ->
  containsByte (Strings.replaceFrom 0 s (String c EmptyString) new) c = false.
Proof.
  intros Hnew. induction s as [| d s IH]; [reflexivity |].
  cbn [Strings.replaceFrom Strings.HasPrefix String.length Nat.sub].
  rewrite andb_true_r.
  destruct (Ascii.eqb c d) eqn:Hcd.
  - rewrite containsByte_app, Hnew, IH. reflexivity.
  - cbn [containsByte]. rewrite Ascii.eqb_sym, Hcd, IH. reflexivity.
Qed.

(** X8.  The document path derived from a file path holds no backslash. *)
Theorem documentPath_no_backslash (filePath : string) :
  containsByte (documentPath filePath) "\"%char = false.
Proof.
  unfold documentPath, Strings.ReplaceAll.
  apply replaceFrom_byte_gone. reflexivity.
Qed.

Lemma uptoLastSep_rooted (s : string) :
  Filepath.uptoLastSep (String "/" s) = String "/" (Filepath.uptoLastSep s).
Proof. reflexivity. Qed.

Lemma Clean_rooted (s : string) :
  exists body, Filepath.Clean (String "/" s) = String "/" body.
Proof. unfold Filepath.Clean. eexists. reflexivity. Qed.

(** [Rel] cannot make a rooted path relative to the content root. *)
Lemma Rel_rooted (s : string) :
  exists msg, Filepath.Rel "data/documents" (String "/" s) = inr msg.
Proof.
  unfold Filepath.Rel.
  destruct (Clean_rooted s) as [body ->].
  eexists. reflexivity.
Qed.

(** X9.  For an absolute file path the relative path cannot be computed,
    and the document path is the name of the directory that holds the
    file, with its backslashes replaced. *)
Theorem documentPath_absolute (s : string) :
  documentPath (String "/" s)
  = Strings.ReplaceAll (Filepath.Base (Filepath.Dir (String "/" s))) "\" "/".
Proof.
  unfold documentPath.
  change (Filepath.Join ["data"; "documents"]) with "data/documents".
  unfold Filepath.Dir at 1. rewrite uptoLastSep_rooted.
  destruct (Clean_rooted (Filepath.uptoLastSep s)) as [body ->].
  destruct (Rel_rooted body) as [msg ->].
  reflexivity.
Qed.

Lemma uptoLastSep_sepfree (name : string) :
  containsByte name "/"%char = false -> Filepath.uptoLastSep name = EmptyString.
Proof.
  induction name as [| c name IH]; [reflexivity |].
  cbn [containsByte Filepath.uptoLastSep]. intros Hc.
  apply orb_false_iff in Hc as [Hc Hname].
  unfold Filepath.IsPathSeparator, Filepath.Separator. rewrite Hc.
  rewrite (IH Hname). reflexivity.
Qed.

(** A last element without separator does not change what [Dir] cuts. *)
Lemma uptoLastSep_app (a name : string) :
  containsByte name "/"%char = false ->
  Filepath.uptoLastSep (a ++ name) = Filepath.uptoLastSep a.
Proof.
  intros Hname. induction a as [| c a IH].
  - exact (uptoLastSep_sepfree name Hname).
  - cbn [String.append Filepath.uptoLastSep]. rewrite IH. reflexivity.
Qed.

(** X10.  For a file that lies in the content root itself the document
    path is [.], whatever the name of the file. *)
Theorem documentPath_in_root (name : string) :
  containsByte name "/"%char = false ->
  documentPath ("data/documents/" ++ name) = ".".
Proof.
  intros Hname. unfold documentPath, Filepath.Dir.
  rewrite (uptoLastSep_app "data/documents/" name Hname).
  reflexivity.
Qed.

Lemma splitElems_sepfree (e : string) :
  containsByte e "/"%char = false -> Filepath.splitElems e = [e].
Proof.
  induction e as [| c e IH]; [reflexivity |].
  cbn [containsByte Filepath.splitElems]. intros Hc.
  apply orb_false_iff in Hc as [Hc He].
  unfold Filepath.IsPathSeparator, Filepath.Separator. rewrite Hc.
  rewrite (IH He). reflexivity.
Qed.

Lemma splitElems_elem (e rest : string) :
  containsByte e "/"%char = false ->
  Filepath.splitElems (e ++ String "/" rest) = e :: Filepath.splitElems rest.
Proof.
  induction e as [| c e IH]; [reflexivity |].
  cbn [containsByte String.append Filepath.splitElems]. intros Hc.
  apply orb_false_iff in Hc as [Hc He].
  unfold Filepath.IsPathSeparator, Filepath.Separator. rewrite Hc.
  rewrite (IH He). reflexivity.
Qed.

Lemma firstElem_elem (e rest : string) :
  containsByte e "/"%char = false ->
  Filepath.firstElem (e ++ String "/" rest) = e
  /\ Filepath.afterFirstElem (e ++ String "/" rest) = rest.
Proof.
  induction e as [| c e IH]; [split; reflexivity |].
  cbn [containsByte String.append Filepath.firstElem Filepath.afterFirstElem].
  intros Hc. apply orb_false_iff in Hc as [Hc He].
  unfold Filepath.IsPathSeparator, Filepath.Separator. rewrite Hc.
  destruct (IH He) as [-> ->]. split; reflexivity.
Qed.

(** [Clean] keeps a path under the content root whose last element is an
    ordinary name, with or without a separator after it. *)
Lemma Clean_under_root (dir tail : string) :
  containsByte dir "/"%char = false ->
  String.eqb dir EmptyString = false ->
  String.eqb dir "." = false ->
  String.eqb dir ".." = false ->
  tail = EmptyString \/ tail = "/" ->
  Filepath.Clean ("data/documents/" ++ dir ++ tail) = "data/documents/" ++ dir.
Proof.
  intros Hsep He Hd Hdd Htail.
  assert (Helems : fold_left (Filepath.cleanStep false)
                     (Filepath.splitElems ("data/documents/" ++ dir ++ tail)) []
                   = [dir; "documents"; "data"]).
  { change ("data/documents/" ++ dir ++ tail)
      with ("data" ++ String "/" ("documents" ++ String "/" (dir ++ tail))).
    rewrite !splitElems_elem by reflexivity.
    destruct Htail as [-> | ->].
    - assert (Hd0 : dir ++ EmptyString = dir)
        by (clear; induction dir as [| c d IH]; simpl; [reflexivity | now rewrite IH]).
      rewrite Hd0, (splitElems_sepfree dir Hsep).
      cbn [fold_left]. unfold Filepath.cleanStep at 1. rewrite He, Hd, Hdd.
      reflexivity.
    - rewrite (splitElems_elem dir EmptyString Hsep).
      cbn [fold_left Filepath.splitElems].
      unfold Filepath.cleanStep at 2. rewrite He, Hd, Hdd.
      reflexivity. }
  unfold Filepath.Clean.
  change ("data/documents/" ++ dir ++ tail)
    with (String "d" ("ata/documents/" ++ dir ++ tail)) at 1.
  cbv beta iota.
  change (Filepath.IsPathSeparator "d") with false. cbv beta iota zeta.
  change (String "d" ("ata/documents/" ++ dir ++ tail))
    with ("data/documents/" ++ dir ++ tail).
  rewrite Helems. reflexivity.
Qed.

Lemma append_empty (s : string) : s ++ EmptyString = s.
Proof. induction s as [| c s IH]; simpl; [reflexivity | now rewrite IH]. Qed.

Lemma uptoLastSep_trailing (x : string) :
  Filepath.uptoLastSep (x ++ "/") = x ++ "/".
Proof.
  induction x as [| c x IH]; [reflexivity |].
  cbn [String.append Filepath.uptoLastSep]. rewrite IH.
  destruct (Filepath.IsPathSeparator c); [reflexivity |].
  destruct x; reflexivity.
Qed.

(** [Rel] from the content root to a folder directly under it. *)
Lemma Rel_under_root (dir : string) :
  containsByte dir "/"%char = false ->
  String.eqb dir EmptyString = false ->
  String.eqb dir "." = false ->
  String.eqb dir ".." = false ->
  Filepath.Rel "data/documents" ("data/documents/" ++ dir) = inl dir.
Proof.
  intros Hsep He Hd Hdd.
  pose proof (Clean_under_root dir EmptyString Hsep He Hd Hdd (or_introl eq_refl))
    as Hclean.
  rewrite append_empty in Hclean.
  unfold Filepath.Rel. rewrite Hclean.
  change (Filepath.Clean "data/documents") with "data/documents".
  assert (Hne : String.eqb ("data/documents/" ++ dir) "data/documents" = false).
  { apply String.eqb_neq. intros Heq.
    apply (f_equal String.length) in Heq. simpl in Heq.
    destruct dir; [discriminate He | simpl in Heq; lia]. }
  rewrite Hne. reflexivity.
Qed.

(** X11.  For a file in a folder directly under the content root the
    document path is the name of the folder, with its backslashes
    replaced; the name of the file is no part of it. *)
Theorem documentPath_in_folder (dir name : string) :
  containsByte dir "/"%char = false ->
  String.eqb dir EmptyString = false ->
  String.eqb dir "." = false ->
  String.eqb dir ".." = false ->
  containsByte name "/"%char = false ->
  documentPath ("data/documents/" ++ dir ++ "/" ++ name)
  = Strings.ReplaceAll dir "\" "/".
Proof.
  intros Hsep He Hd Hdd Hname.
  assert (Hdir : Filepath.Dir ("data/documents/" ++ dir ++ "/" ++ name)
                 = "data/documents/" ++ dir).
  { unfold Filepath.Dir.
    replace ("data/documents/" ++ dir ++ "/" ++ name)
      with ((("data/documents/" ++ dir) ++ "/") ++ name)
      by (rewrite !append_assoc; reflexivity).
    rewrite (uptoLastSep_app _ name Hname), uptoLastSep_trailing.
    rewrite append_assoc.
    exact (Clean_under_root dir "/" Hsep He Hd Hdd (or_intror eq_refl)). }
  unfold documentPath. rewrite Hdir.
  change (Filepath.Join ["data"; "documents"]) with "data/documents".
  rewrite (Rel_under_root dir Hsep He Hd Hdd). reflexivity.
Qed.

(** ** The further properties on the small installation *)


(** The registry of the sample installation: one nil entry, one
    preprocessor. *)
Lemma wrapPreprocessors_binds_path_witness :
  List.length (wrapPreprocessors (World:=Sample.World) "p/q" (Sample.registered Sample.files)) = 1
  /\ forall wrapped,
       In wrapped (wrapPreprocessors (World:=Sample.World) "p/q"
                     (Sample.registered Sample.files)) ->
       exists preprocessor,
         In (Some preprocessor) (Sample.registered Sample.files)
         /\ forall md path w, wrapped md path w = preprocessor md "p/q" w.
Proof.
  destruct (wrapPreprocessors_binds_path (World:=Sample.World) "p/q"
              (Sample.registered Sample.files)) as (_ & Hlen & Hin).
  split; [rewrite Hlen; reflexivity | exact Hin].
Defined.

(** A document without frontmatter. *)
Lemma default_route_witness :
  Parse (World:=Sample.World) "see {{path}}" Sample.files
  = ((EmptyString, "see {{path}}", false), Sample.files)
  /\ value (RenderMarkdownWithPath (World:=Sample.World) "see {{path}}" "p/q" Sample.files)
     = "<p>see p/q</p>".
Proof.
  assert (HP : Parse (World:=Sample.World) "see {{path}}" Sample.files
               = ((EmptyString, "see {{path}}", false), Sample.files)) by reflexivity.
  split; [exact HP |].
  rewrite (default_route (pkgs:=Sample.packages) "see {{path}}" "p/q"
             Sample.files Sample.files EmptyString "see {{path}}" false
             HP (or_introl eq_refl)).
  vm_compute. reflexivity.
Defined.


(** The preprocessing call when the sample file is rendered. *)
Lemma entry_points_bind_path_witness :
  In (CallProcessMarkdown "see {{path}}" "team")
     (calls (RenderMarkdownFile (World:=Sample.World)
               "data/documents/team/page.md" Sample.files))
  /\ "team" = documentPath "data/documents/team/page.md".
Proof.
  assert (Hin : In (CallProcessMarkdown "see {{path}}" "team")
                   (calls (RenderMarkdownFile (World:=Sample.World)
                             "data/documents/team/page.md" Sample.files))).
  { vm_compute. do 2 right. left. reflexivity. }
  split; [exact Hin |].
  exact (proj2 (entry_points_bind_path (pkgs:=Sample.packages)) _ _ _ _ Hin).
Defined.

(** A page in the content root. *)
Lemma documentPath_in_root_witness :
  containsByte "index.md" "/"%char = false
  /\ documentPath "data/documents/index.md" = ".".
Proof.
  split; [reflexivity |].
  exact (documentPath_in_root "index.md" eq_refl).
Defined.

(** A page in a folder whose name holds a backslash. *)
Lemma documentPath_in_folder_witness :
  containsByte "a\b" "/"%char = false
  /\ containsByte "page.md" "/"%char = false
  /\ documentPath "data/documents/a\b/page.md" = "a/b".
Proof.
  split; [reflexivity |]. split; [reflexivity |].
  exact (documentPath_in_folder "a\b" "page.md" eq_refl eq_refl eq_refl eq_refl eq_refl).
Defined.
